(** * AUSWO points calculator: the scoring engine of [app/main.py]

    The development embeds the pure scoring functions of the service
    ([_bucket_points], [score_age], [score_english], [score_education],
    [score_experience], [score_au_study], [score_optional],
    [score_state_nomination]) and the aggregation done by [calc_points].

    Numbers.  Table thresholds are JSON numbers, ages and years are
    ints, and Python compares ints and floats by their exact mathematical
    value, so finite numbers are rationals [Q].  The English scores of a
    request are Python floats, and the route accepts the non-finite ones
    too: they are modelled by [pyfloat], a finite value, an infinity or
    NaN, with the comparisons of IEEE 754 (every comparison with NaN is
    false).  Points are integers ([Z]).

    Rule table.  [RULES] is read once from [rules.json]; it is a
    parameter of every scorer here, as a record with the keys the code
    reads. *)

From Stdlib Require Import ZArith QArith List Permutation Sorted Lia.
From stdpp Require Import base option strings gmap.
Import ListNotations.

Local Open Scope Z_scope.

(** ** Rule table *)

(** One row of a bucket table: [{"min": .., "max": .., "points": ..}];
    [bmax = None] is a row without the ["max"] key. *)
Record Bucket := mkBucket {
  bmin : Q;
  bmax : option Q;
  points : Z
}.

Record EnglishRules := mkEnglishRules {
  ielts_overall : list Bucket;
  pte_overall : list Bucket;
  ielts_bands : list Bucket;
  pte_bands : list Bucket
}.

Record WorkRules := mkWorkRules {
  overseas : list Bucket;
  australia : list Bucket;
  mode : string;
  cap_points : Z
}.

Record StudyRules := mkStudyRules {
  study_points : Z;
  regional_bonus : Z
}.

Record Meta := mkMeta {
  version : string;
  updated_at : string
}.

Record Rules := mkRules {
  meta : Meta;
  age_table : list Bucket;
  english_rules : EnglishRules;
  education_mapping : gmap string Z;
  work_rules : WorkRules;
  study_rules : StudyRules;
  professional_year_points : Z;
  naati_points : Z;
  partner_mapping : gmap string Z;
  state_nomination : gmap string Z
}.

(** ** Request models *)

(** A Python [float]. *)
Inductive pyfloat : Type :=
  | Finite (q : Q)
  | PInf
  | NInf
  | NaN.

Record English := mkEnglish {
  test : string;
  overall : option pyfloat;
  listening : option pyfloat;
  reading : option pyfloat;
  writing : option pyfloat;
  speaking : option pyfloat
}.

Record WorkExp := mkWorkExp {
  overseas_years : Z;
  aus_years : Z
}.

Record AuStudy := mkAuStudy {
  completed : bool;
  regional : bool
}.

Record CalcRequest := mkCalcRequest {
  visa : string;
  age : Z;
  english : English;
  education : string;
  work_experience : WorkExp;
  australia_study : AuStudy;
  professional_year : bool;
  naati : bool;
  partner : string
}.

(** The constraints pydantic enforces on a [CalcRequest] before the
    route body runs. *)
Definition valid_request (req : CalcRequest) : Prop :=
  visa req ∈ ["189"; "190"; "491"]%string ∧
  (0 <= age req <= 100) ∧
  test (english req) ∈ ["ielts"; "pte"]%string ∧
  education req ∈ ["phd"; "master"; "bachelor"; "diploma"; "trade"]%string ∧
  0 <= overseas_years (work_experience req) ∧
  0 <= aus_years (work_experience req) ∧
  partner req ∈ ["single"; "skilled"; "english_only"; "none"]%string.

(** ** Python helpers *)

(** [x < y] on finite numbers. *)
Definition Qlt_bool (x y : Q) : bool := negb (Qle_bool y x).

(** [x <= y] on floats. *)
Definition float_le (x y : pyfloat) : bool :=
  match x, y with
  | NaN, _ | _, NaN => false
  | NInf, _ => true
  | _, PInf => true
  | Finite a, Finite b => Qle_bool a b
  | _, _ => false
  end.

(** [x < y] on floats. *)
Definition float_lt (x y : pyfloat) : bool :=
  match x, y with
  | NaN, _ | _, NaN => false
  | Finite a, Finite b => Qlt_bool a b
  | NInf, NInf => false
  | PInf, PInf => false
  | NInf, _ => true
  | _, PInf => true
  | _, _ => false
  end.

(** [x >= y] on floats. *)
Definition float_ge (x y : pyfloat) : bool := float_le y x.

(** [min(iterable)] on a non-empty sequence [x :: xs]: the running
    minimum is replaced only by an item that compares strictly smaller,
    so a NaN in first position stays and a later NaN is skipped. *)
Definition py_min (x : pyfloat) (xs : list pyfloat) : pyfloat :=
  fold_left (fun m y => if float_lt y m then y else m) xs x.

(** [sorted(rows, key=lambda x: x["min"], reverse=True)]: a stable sort
    by descending key (rows with equal keys keep their table order). *)
Fixpoint insert_desc (x : Bucket) (l : list Bucket) : list Bucket :=
  match l with
  | [] => [x]
  | y :: ys =>
      if Qlt_bool (bmin x) (bmin y) then y :: insert_desc x ys
      else x :: y :: ys
  end.

Fixpoint sorted_desc (l : list Bucket) : list Bucket :=
  match l with
  | [] => []
  | x :: xs => insert_desc x (sorted_desc xs)
  end.

(** A [dict] with string keys, in insertion order. *)
Definition dict := list (string * Z).

(** [d[k] = v]: overwrite in place, or append a new key. *)
Fixpoint dict_set (k : string) (v : Z) (d : dict) : dict :=
  match d with
  | [] => [(k, v)]
  | (k', v') :: rest =>
      if String.eqb k' k then (k', v) :: rest
      else (k', v') :: dict_set k v rest
  end.

(** [d.update(o)]. *)
Definition dict_update (d o : dict) : dict :=
  fold_left (fun acc kv => dict_set (fst kv) (snd kv) acc) o d.

(** [d.get(k)]. *)
Fixpoint dict_get (k : string) (d : dict) : option Z :=
  match d with
  | [] => None
  | (k', v) :: rest => if String.eqb k' k then Some v else dict_get k rest
  end.

Definition dict_keys (d : dict) : list string := map fst d.
Definition dict_values (d : dict) : list Z := map snd d.

(** [sum(xs)]. *)
Definition py_sum (xs : list Z) : Z := fold_left Z.add xs 0.

(** ** Scoring functions *)

(** The test of the loop body of [_bucket_points]:
    [value >= b["min"] and value <= b.get("max", float("inf"))]. *)
Definition bucket_test (b : Bucket) (value : pyfloat) : bool :=
  float_ge value (Finite (bmin b)) &&
  float_le value
    match bmax b with
    | Some m => Finite m
    | None => PInf
    end.

Fixpoint _bucket_points (buckets : list Bucket) (value : pyfloat) : Z :=
  match buckets with
  | [] => 0
  | b :: rest =>
      if bucket_test b value then points b else _bucket_points rest value
  end.

(** The [for row in sorted(...)] loop of [score_english], followed by the
    final [return 0] it falls through to. *)
Fixpoint band_scan (rows : list Bucket) (mn : pyfloat) : Z :=
  match rows with
  | [] => 0
  | row :: rest =>
      if float_ge mn (Finite (bmin row)) then points row
      else band_scan rest mn
  end.

(** The JSON object returned by the route. *)
Record Response := mkResponse {
  resp_visa : string;
  total : Z;
  breakdown : dict;
  notes : list string
}.

Section Scoring.

Variable RULES : Rules.

Definition score_age (a : Z) : Z :=
  _bucket_points (age_table RULES) (Finite (inject_Z a)).

Definition score_english (eng : English) : Z :=
  let t := test eng in
  match overall eng with
  | Some ov =>
      if String.eqb t "ielts"
      then _bucket_points (ielts_overall (english_rules RULES)) ov
      else _bucket_points (pte_overall (english_rules RULES)) ov
  | None =>
      match listening eng, reading eng, writing eng, speaking eng with
      | Some l, Some r, Some w, Some s =>
          let mn := py_min l [r; w; s] in
          if String.eqb t "ielts"
          then band_scan (sorted_desc (ielts_bands (english_rules RULES))) mn
          else band_scan (sorted_desc (pte_bands (english_rules RULES))) mn
      | _, _, _, _ => 0
      end
  end.

Definition score_education (level : string) : Z :=
  default 0 (education_mapping RULES !! level).

Definition score_experience (exp : WorkExp) : Z :=
  let r := work_rules RULES in
  let over :=
    _bucket_points (overseas r) (Finite (inject_Z (overseas_years exp))) in
  let aus :=
    _bucket_points (australia r) (Finite (inject_Z (aus_years exp))) in
  if String.eqb (mode r) "sum_cap" then Z.min (cap_points r) (over + aus)
  else if String.eqb (mode r) "max_only" then Z.max over aus
  else 0.

Definition score_au_study (stu : AuStudy) : Z :=
  let pts := 0 in
  if completed stu then
    let pts := pts + study_points (study_rules RULES) in
    if regional stu then pts + regional_bonus (study_rules RULES) else pts
  else pts.

Definition score_optional (py na : bool) (p : string) : dict :=
  [ ("professional_year"%string,
      if py then professional_year_points RULES else 0);
    ("naati"%string, if na then naati_points RULES else 0);
    ("partner"%string, default 0 (partner_mapping RULES !! p)) ].

Definition score_state_nomination (v : string) : Z :=
  default 0 (state_nomination RULES !! v).

(** ** The route [POST /points/calc] *)

Definition build_breakdown (req : CalcRequest) : dict :=
  let br := [] in
  let br := dict_set "age" (score_age (age req)) br in
  let br := dict_set "english" (score_english (english req)) br in
  let br := dict_set "education" (score_education (education req)) br in
  let br := dict_set "work_experience"
              (score_experience (work_experience req)) br in
  let br := dict_set "australia_study"
              (score_au_study (australia_study req)) br in
  let opt := score_optional (professional_year req) (naati req)
               (partner req) in
  let br := dict_update br opt in
  dict_set "state_nomination" (score_state_nomination (visa req)) br.

(** The body of the [try] block.  Over a table of this shape and a
    request pydantic has validated, no statement of the block raises,
    so the [except] branch (HTTP 400) is not reached and the route is
    modelled by the object it returns. *)
Definition calc_points (req : CalcRequest) : Response :=
  let br := build_breakdown req in
  let total := py_sum (dict_values br) in
  {| resp_visa := visa req;
     total := total;
     breakdown := br;
     notes :=
       [ ("Rules " +:+ version (meta RULES) +:+ " (" +:+
           updated_at (meta RULES) +:+ ")")%string;
         "Demo only. Verify with current DHA policy if used in production."%string ] |}.

End Scoring.

(** ** A sample rule table

    [rules.json] is data of the deployment; this table has the shape the
    code reads and is used to run the scorers on concrete requests. *)

Definition bucket (lo : Q) (hi : option Q) (p : Z) : Bucket :=
  {| bmin := lo; bmax := hi; points := p |}.

Definition sample_rules : Rules :=
  {| meta := {| version := "2024.1"; updated_at := "2024-07-01" |};
     age_table :=
       [ bucket 18 (Some 24%Q) 25; bucket 25 (Some 32%Q) 30;
         bucket 33 (Some 39%Q) 25; bucket 40 (Some 44%Q) 15 ];
     english_rules :=
       {| ielts_overall := [ bucket 8 None 20; bucket 7 (Some (15 # 2)) 10 ];
          pte_overall := [ bucket 79 None 20; bucket 65 (Some 78%Q) 10 ];
          ielts_bands := [ bucket 7 None 10; bucket 8 None 20 ];
          pte_bands := [ bucket 65 None 10; bucket 79 None 20 ] |};
     education_mapping :=
       <["phd" := 20]> (<["master" := 15]> (<["bachelor" := 15]>
       (<["diploma" := 10]> (<["trade" := 10]> ∅))));
     work_rules :=
       {| overseas :=
            [ bucket 3 (Some 4%Q) 5; bucket 5 (Some 7%Q) 10; bucket 8 None 15 ];
          australia :=
            [ bucket 1 (Some 2%Q) 5; bucket 3 (Some 4%Q) 10;
              bucket 5 (Some 7%Q) 15; bucket 8 None 20 ];
          mode := "sum_cap";
          cap_points := 20 |};
     study_rules := {| study_points := 5; regional_bonus := 5 |};
     professional_year_points := 5;
     naati_points := 5;
     partner_mapping :=
       <["single" := 10]> (<["skilled" := 10]> (<["english_only" := 5]>
       (<["none" := 0]> ∅)));
     state_nomination := <["190" := 5]> (<["491" := 15]> ∅) |}.

Definition sample_english : English :=
  {| test := "ielts"; overall := Some (Finite 8); listening := None;
     reading := None; writing := None; speaking := None |}.

Definition sample_request : CalcRequest :=
  {| visa := "189"; age := 30; english := sample_english;
     education := "master";
     work_experience := {| overseas_years := 9; aus_years := 8 |};
     australia_study := {| completed := true; regional := true |};
     professional_year := true; naati := false; partner := "single" |}.

(** * Specification vocabulary *)

(** The order [x ≤ y] of floats: NaN is related to nothing, -∞ is below
    and +∞ above every other float. *)
Definition Fle (x y : pyfloat) : Prop :=
  match x, y with
  | NaN, _ | _, NaN => False
  | NInf, _ => True
  | _, PInf => True
  | Finite a, Finite b => (a <= b)%Q
  | _, _ => False
  end.

(** [min ≤ v ≤ max], with an absent [max] read as +∞. *)
Definition in_range (b : Bucket) (v : pyfloat) : Prop :=
  Fle (Finite (bmin b)) v /\
  match bmax b with
  | Some m => Fle v (Finite m)
  | None => Fle v PInf
  end.


(** The band the spec describes: among the rows whose threshold the
    minimum meets or exceeds, the one with the highest threshold (the
    earliest such row of the table when thresholds repeat). *)
Fixpoint best_band (rows : list Bucket) (mn : pyfloat) : option Bucket :=
  match rows with
  | [] => None
  | row :: rest =>
      if float_ge mn (Finite (bmin row)) then
        match best_band rest mn with
        | Some b => if Qlt_bool (bmin row) (bmin b) then Some b else Some row
        | None => Some row
        end
      else best_band rest mn
  end.

(** The row at which the scan of [band_scan] stops, if any. *)
Definition first_qualifying (rows : list Bucket) (mn : pyfloat)
    : option Bucket :=
  List.find (fun row => float_ge mn (Finite (bmin row))) rows.




(** The category names of the breakdown, in the order they are written. *)
Definition categories : list string :=
  [ "age"; "english"; "education"; "work_experience"; "australia_study";
    "professional_year"; "naati"; "partner"; "state_nomination" ]%string.

(** Section 4.10 of the spec: the breakdown has exactly the nine category
    keys and no value is negative. *)
Definition breakdown_nonneg (RULES : Rules) (req : CalcRequest) : Prop :=
  dict_keys (breakdown (calc_points RULES req)) = categories /\
  Forall (fun v => 0 <= v) (dict_values (breakdown (calc_points RULES req))).

Definition buckets_nonneg (bs : list Bucket) : Prop :=
  Forall (fun b => 0 <= points b) bs.

Definition mapping_nonneg (m : gmap string Z) : Prop :=
  forall k v, m !! k = Some v -> 0 <= v.

(** Every amount of points the table configures is nonnegative. *)
Definition rules_nonneg (RULES : Rules) : Prop :=
  buckets_nonneg (age_table RULES) /\
  buckets_nonneg (ielts_overall (english_rules RULES)) /\
  buckets_nonneg (pte_overall (english_rules RULES)) /\
  buckets_nonneg (ielts_bands (english_rules RULES)) /\
  buckets_nonneg (pte_bands (english_rules RULES)) /\
  mapping_nonneg (education_mapping RULES) /\
  buckets_nonneg (overseas (work_rules RULES)) /\
  buckets_nonneg (australia (work_rules RULES)) /\
  0 <= cap_points (work_rules RULES) /\
  0 <= study_points (study_rules RULES) /\
  0 <= regional_bonus (study_rules RULES) /\
  0 <= professional_year_points RULES /\
  0 <= naati_points RULES /\
  mapping_nonneg (partner_mapping RULES) /\
  mapping_nonneg (state_nomination RULES).

(** The table gives subclass "189" no nomination points: the key is
    absent or maps to 0 (what section 4.9 of the spec expects of the
    table, and what the comment "189 -> 0" of the code relies on). *)
Definition nomination_189_zero (RULES : Rules) : Prop :=
  state_nomination RULES !! "189"%string = None \/
  state_nomination RULES !! "189"%string = Some 0.

(** A table that configures a penalty: applicants of 45 and over lose 5
    points. *)
Definition penalty_rules : Rules :=
  {| meta := meta sample_rules;
     age_table := age_table sample_rules ++ [ bucket 45 None (-5) ];
     english_rules := english_rules sample_rules;
     education_mapping := education_mapping sample_rules;
     work_rules := work_rules sample_rules;
     study_rules := study_rules sample_rules;
     professional_year_points := professional_year_points sample_rules;
     naati_points := naati_points sample_rules;
     partner_mapping := partner_mapping sample_rules;
     state_nomination := state_nomination sample_rules |}.

(** A table that grants subclass 189 a nomination bonus of 7. *)
Definition nominated_189_rules : Rules :=
  {| meta := meta sample_rules;
     age_table := age_table sample_rules;
     english_rules := english_rules sample_rules;
     education_mapping := education_mapping sample_rules;
     work_rules := work_rules sample_rules;
     study_rules := study_rules sample_rules;
     professional_year_points := professional_year_points sample_rules;
     naati_points := naati_points sample_rules;
     partner_mapping := partner_mapping sample_rules;
     state_nomination := <["189" := 7]> (state_nomination sample_rules) |}.

(** A 50-year-old applicant. *)
Definition senior_request : CalcRequest :=
  {| visa := "189"; age := 50; english := sample_english;
     education := "master";
     work_experience := {| overseas_years := 9; aus_years := 8 |};
     australia_study := {| completed := false; regional := false |};
     professional_year := false; naati := false; partner := "none" |}.

(** The request [req] resubmitted under another visa subclass. *)
Definition with_visa (v : string) (req : CalcRequest) : CalcRequest :=
  {| visa := v; age := age req; english := english req;
     education := education req; work_experience := work_experience req;
     australia_study := australia_study req;
     professional_year := professional_year req; naati := naati req;
     partner := partner req |}.

(** An English result given by its four skills only. *)
Definition skills_only (t : string) (l r w s : pyfloat) : English :=
  {| test := t; overall := None; listening := Some l; reading := Some r;
     writing := Some w; speaking := Some s |}.

(** Equal thresholds carry equal points. *)
Definition thresholds_agree (bands : list Bucket) : Prop :=
  forall b b', In b bands -> In b' bands ->
    (bmin b == bmin b')%Q -> points b = points b'.


(** All buckets of the table that contain [v] carry the same points. *)
Definition matches_agree (t : list Bucket) (v : pyfloat) : Prop :=
  forall b b', In b t -> In b' t ->
    in_range b v -> in_range b' v -> points b = points b'.

(** * Properties *)

(** ** Comparisons *)

Lemma Qlt_bool_iff (x y : Q) : Qlt_bool x y = true <-> (x < y)%Q.
Proof.
  unfold Qlt_bool. rewrite negb_true_iff. split.
  - intros H. apply Qnot_le_lt. intros Hle.
    apply Qle_bool_iff in Hle. congruence.
  - intros H. destruct (Qle_bool y x) eqn:E; [|reflexivity].
    apply Qle_bool_iff in E. exfalso. exact (Qlt_not_le _ _ H E).
Qed.

Lemma Qlt_bool_false_iff (x y : Q) : Qlt_bool x y = false <-> (y <= x)%Q.
Proof.
  unfold Qlt_bool. rewrite negb_false_iff. apply Qle_bool_iff.
Qed.

Lemma Qle_bool_false_iff (x y : Q) : Qle_bool x y = false <-> (y < x)%Q.
Proof.
  rewrite <- Qlt_bool_iff. unfold Qlt_bool.
  destruct (Qle_bool x y); simpl; split; congruence.
Qed.

Lemma float_le_iff (x y : pyfloat) : float_le x y = true <-> Fle x y.
Proof.
  destruct x as [a| | |], y as [b| | |]; simpl;
    try apply Qle_bool_iff; split; (discriminate || tauto).
Qed.

Lemma float_le_false_iff (x y : pyfloat) : float_le x y = false <-> ~ Fle x y.
Proof.
  rewrite <- float_le_iff. destruct (float_le x y); split; congruence.
Qed.

Lemma float_ge_iff (x y : pyfloat) : float_ge x y = true <-> Fle y x.
Proof. apply float_le_iff. Qed.

Lemma float_ge_false_iff (x y : pyfloat) : float_ge x y = false <-> ~ Fle y x.
Proof. apply float_le_false_iff. Qed.


Lemma Fle_refl (x : pyfloat) : x <> NaN -> Fle x x.
Proof.
  destruct x; simpl; intros H; try exact I; [apply Qle_refl | congruence].
Qed.

Lemma Fle_trans (x y z : pyfloat) : Fle x y -> Fle y z -> Fle x z.
Proof.
  destruct x, y, z; simpl; try tauto. apply Qle_trans.
Qed.

(** A strictly smaller item is also below-or-equal; when an item is not
    strictly smaller and neither float is NaN, it is above-or-equal. *)
Lemma float_lt_le (x y : pyfloat) : float_lt x y = true -> Fle x y.
Proof.
  destruct x, y; simpl; try discriminate; try tauto.
  intros H. apply Qlt_bool_iff in H. apply Qlt_le_weak, H.
Qed.

Lemma float_lt_false_le (x y : pyfloat) :
  x <> NaN -> y <> NaN -> float_lt x y = false -> Fle y x.
Proof.
  destruct x, y; simpl; try discriminate; try tauto; try congruence.
  intros _ _ H. apply Qlt_bool_false_iff in H. exact H.
Qed.

(** A float that meets a threshold meets every lower one. *)
Lemma Fle_threshold (a b : Q) (x : pyfloat) :
  (a <= b)%Q -> Fle (Finite b) x -> Fle (Finite a) x.
Proof. intros Hab. apply (Fle_trans (Finite a) (Finite b) x). exact Hab. Qed.

(** ** Bucket lookup *)

Lemma bucket_test_iff (b : Bucket) (v : pyfloat) :
  bucket_test b v = true <-> in_range b v.
Proof.
  unfold bucket_test, in_range. rewrite andb_true_iff, float_ge_iff.
  destruct (bmax b) as [m|]; rewrite float_le_iff; reflexivity.
Qed.

Lemma bucket_test_false_iff (b : Bucket) (v : pyfloat) :
  bucket_test b v = false <-> ~ in_range b v.
Proof.
  rewrite <- bucket_test_iff. destruct (bucket_test b v); split; congruence.
Qed.

(** C1. [_bucket_points] returns the points of the first bucket, in table
    order, whose range [min ≤ v ≤ max] (no [max]: unbounded above)
    contains the value: the table splits as [pre ++ b :: post] with no
    bucket of [pre] matching and [b] matching.  When no bucket matches the
    result is 0; the empty table is such a case. *)
Theorem bucket_points_first_match (buckets : list Bucket) (v : pyfloat) :
  ((exists pre b post,
      buckets = pre ++ b :: post /\
      Forall (fun b' => ~ in_range b' v) pre /\
      in_range b v /\
      _bucket_points buckets v = points b)
   \/
   (Forall (fun b' => ~ in_range b' v) buckets /\
    _bucket_points buckets v = 0))
  /\ _bucket_points [] v = 0.
Proof.
  split; [|reflexivity].
  induction buckets as [|b rest IH]; simpl.
  - right. split; [constructor | reflexivity].
  - destruct (bucket_test b v) eqn:E.
    + left. exists [], b, rest. simpl.
      apply bucket_test_iff in E. repeat split; try constructor; apply E.
    + apply bucket_test_false_iff in E.
      destruct IH as [(pre & b0 & post & -> & Hpre & Hb0 & Hres) | [Hall Hres]].
      * left. exists (b :: pre), b0, post. simpl.
        repeat split; try apply Hb0; auto.
      * right. split; auto.
Qed.

(** The first match is unique, so the two cases above determine the
    result. *)
Lemma bucket_points_at_first_match (pre post : list Bucket) (b : Bucket) (v : pyfloat) :
  Forall (fun b' => ~ in_range b' v) pre ->
  in_range b v ->
  _bucket_points (pre ++ b :: post) v = points b.
Proof.
  intros Hpre Hb. induction Hpre as [|b' pre Hb' _ IH]; simpl.
  - apply bucket_test_iff in Hb. rewrite Hb. reflexivity.
  - apply bucket_test_false_iff in Hb'. rewrite Hb'. exact IH.
Qed.

Lemma bucket_points_no_match (buckets : list Bucket) (v : pyfloat) :
  Forall (fun b' => ~ in_range b' v) buckets ->
  _bucket_points buckets v = 0.
Proof.
  induction 1 as [|b rest Hb _ IH]; simpl; [reflexivity|].
  apply bucket_test_false_iff in Hb. rewrite Hb. exact IH.
Qed.

(** ** English: the overall path *)

(** C2. When [overall] is present the English score is the bucket lookup
    of the overall value, in [ielts_overall] for test "ielts" and in
    [pte_overall] for test "pte", whatever the four skill fields hold. *)
Theorem score_english_overall (RULES : Rules) (eng : English)
    (ov : pyfloat) :
  overall eng = Some ov ->
  (test eng = "ielts"%string ->
   score_english RULES eng =
     _bucket_points (ielts_overall (english_rules RULES)) ov) /\
  (test eng = "pte"%string ->
   score_english RULES eng =
     _bucket_points (pte_overall (english_rules RULES)) ov).
Proof.
  intros Hov. unfold score_english. rewrite Hov.
  split; intros ->; reflexivity.
Qed.

Lemma score_english_overall_witness :
  score_english sample_rules sample_english =
    _bucket_points (ielts_overall (english_rules sample_rules)) (Finite 8).
Proof.
  apply (score_english_overall sample_rules sample_english (Finite 8));
    reflexivity.
Defined.

(** C10. With [test] and a present [overall] fixed, the score does not
    depend on the four skill fields; presence is [is not None], so an
    overall of 0.0 also takes the overall path and is looked up in the
    overall table even when four skills are supplied. *)
Theorem score_english_ignores_skills (RULES : Rules) (t : string)
    (ov : pyfloat) (l1 r1 w1 s1 l2 r2 w2 s2 : option pyfloat) :
  score_english RULES (mkEnglish t (Some ov) l1 r1 w1 s1) =
  score_english RULES (mkEnglish t (Some ov) l2 r2 w2 s2)
  /\
  score_english RULES (mkEnglish t (Some (Finite 0)) l1 r1 w1 s1) =
    (if String.eqb t "ielts"
     then _bucket_points (ielts_overall (english_rules RULES)) (Finite 0)
     else _bucket_points (pte_overall (english_rules RULES)) (Finite 0)).
Proof.
  split; reflexivity.
Qed.

(** An overall of 0.0 with four skills of 9.0 scores 0 on the sample
    table, where the skills alone would score 20. *)
Example overall_zero_beats_skills :
  score_english sample_rules
    (mkEnglish "ielts" (Some (Finite 0)) (Some (Finite 9)) (Some (Finite 9))
       (Some (Finite 9)) (Some (Finite 9))) = 0
  /\
  score_english sample_rules
    (mkEnglish "ielts" None (Some (Finite 9)) (Some (Finite 9))
       (Some (Finite 9)) (Some (Finite 9))) = 20.
Proof. split; reflexivity. Qed.

(** C4. Without [overall] and with at least one of the four skills
    missing, the English score is 0; the scorer is a total function, so
    this is an ordinary result and no exception path exists. *)
Theorem score_english_partial_skills (RULES : Rules) (eng : English) :
  overall eng = None ->
  (listening eng = None \/ reading eng = None \/
   writing eng = None \/ speaking eng = None) ->
  score_english RULES eng = 0.
Proof.
  intros Hov Hmiss. unfold score_english. rewrite Hov.
  destruct (listening eng), (reading eng), (writing eng), (speaking eng);
    try reflexivity.
  destruct Hmiss as [H | [H | [H | H]]]; discriminate H.
Qed.

Lemma score_english_partial_skills_witness :
  score_english sample_rules
    (mkEnglish "ielts" None (Some (Finite 9)) (Some (Finite 9)) None
       (Some (Finite 9))) = 0.
Proof.
  apply score_english_partial_skills; [reflexivity|].
  right; right; left; reflexivity.
Defined.

(** ** English: the per-skill path *)

(** [py_min] returns an item of the sequence; when no item is NaN, it is
    below every item. *)
Lemma py_min_in (x : pyfloat) (xs : list pyfloat) :
  In (py_min x xs) (x :: xs).
Proof.
  unfold py_min. revert x.
  induction xs as [|y ys IH]; intros x; cbn [fold_left].
  - left; reflexivity.
  - destruct (IH (if float_lt y x then y else x)) as [Heq | Hin].
    + rewrite <- Heq.
      destruct (float_lt y x); [right; left | left]; reflexivity.
    + right; right; exact Hin.
Qed.

Lemma py_min_le (x : pyfloat) (xs : list pyfloat) :
  Forall (fun y => y <> NaN) (x :: xs) ->
  Forall (Fle (py_min x xs)) (x :: xs).
Proof.
  unfold py_min. revert x.
  induction xs as [|y ys IH]; intros x Hnn; cbn [fold_left].
  - inversion Hnn; subst.
    constructor; [apply Fle_refl; assumption | constructor].
  - inversion Hnn as [|? ? Hx Hrest]; subst.
    inversion Hrest as [|? ? Hy Hys]; subst.
    set (m := if float_lt y x then y else x).
    assert (Hm : m <> NaN /\ Fle m x /\ Fle m y).
    { subst m. destruct (float_lt y x) eqn:E.
      - split; [exact Hy|].
        split; [apply float_lt_le, E | apply Fle_refl, Hy].
      - split; [exact Hx|].
        split; [apply Fle_refl, Hx | apply float_lt_false_le; assumption]. }
    destruct Hm as (Hmn & Hmx & Hmy).
    assert (IHm : Forall (Fle (fold_left
                     (fun m y => if float_lt y m then y else m) ys m))
                   (m :: ys))
      by (apply IH; constructor; assumption).
    inversion IHm as [|? ? Hhd Htl]; subst.
    constructor; [eapply Fle_trans; eauto|].
    constructor; [eapply Fle_trans; eauto | exact Htl].
Qed.

(** The model of [sorted(..., reverse=True)] is a permutation of the
    table, in descending order of [min], and stable. *)
Lemma insert_desc_perm (x : Bucket) (l : list Bucket) :
  Permutation (insert_desc x l) (x :: l).
Proof.
  induction l as [|y ys IH]; simpl; [reflexivity|].
  destruct (Qlt_bool (bmin x) (bmin y)); [|reflexivity].
  rewrite IH. apply perm_swap.
Qed.

Lemma sorted_desc_perm (l : list Bucket) : Permutation (sorted_desc l) l.
Proof.
  induction l as [|x xs IH]; simpl; [reflexivity|].
  rewrite insert_desc_perm. constructor. exact IH.
Qed.



Lemma insert_desc_stable (q : Q) (x : Bucket) (l : list Bucket) :
  List.filter (fun b => Qeq_bool (bmin b) q) (insert_desc x l) =
  List.filter (fun b => Qeq_bool (bmin b) q) (x :: l).
Proof.
  induction l as [|y ys IH]; [reflexivity|].
  cbn [insert_desc].
  destruct (Qlt_bool (bmin x) (bmin y)) eqn:E; [|reflexivity].
  apply Qlt_bool_iff in E.
  cbn [List.filter] in *. rewrite IH.
  destruct (Qeq_bool (bmin x) q) eqn:Ex, (Qeq_bool (bmin y) q) eqn:Ey;
    try reflexivity.
  apply Qeq_bool_iff in Ex, Ey. exfalso.
  rewrite Ex, Ey in E. exact (Qlt_irrefl _ E).
Qed.

Lemma sorted_desc_stable (q : Q) (l : list Bucket) :
  List.filter (fun b => Qeq_bool (bmin b) q) (sorted_desc l) =
  List.filter (fun b => Qeq_bool (bmin b) q) l.
Proof.
  induction l as [|x xs IH]; [reflexivity|].
  cbn [sorted_desc]. rewrite insert_desc_stable.
  cbn [List.filter]. rewrite IH. reflexivity.
Qed.

Lemma band_scan_find (rows : list Bucket) (mn : pyfloat) :
  band_scan rows mn =
    match first_qualifying rows mn with
    | Some b => points b
    | None => 0
    end.
Proof.
  unfold first_qualifying.
  induction rows as [|row rest IH]; cbn [band_scan List.find];
    [reflexivity|].
  destruct (float_ge mn (Finite (bmin row))); [reflexivity | exact IH].
Qed.

Lemma first_qualifying_insert (x : Bucket) (l : list Bucket) (mn : pyfloat) :
  first_qualifying (insert_desc x l) mn =
    if float_ge mn (Finite (bmin x)) then
      match first_qualifying l mn with
      | Some b => if Qlt_bool (bmin x) (bmin b) then Some b else Some x
      | None => Some x
      end
    else first_qualifying l mn.
Proof.
  unfold first_qualifying.
  induction l as [|y ys IH]; cbn [insert_desc List.find].
  - destruct (float_ge mn (Finite (bmin x))); reflexivity.
  - destruct (Qlt_bool (bmin x) (bmin y)) eqn:E; cbn [List.find].
    + destruct (float_ge mn (Finite (bmin y))) eqn:Ey.
      * rewrite E. destruct (float_ge mn (Finite (bmin x))); reflexivity.
      * exact IH.
    + destruct (float_ge mn (Finite (bmin x))) eqn:Ex; [|reflexivity].
      apply Qlt_bool_false_iff in E. apply float_ge_iff in Ex.
      assert (Hy : float_ge mn (Finite (bmin y)) = true).
      { apply float_ge_iff. eapply Fle_threshold; eauto. }
      rewrite Hy.
      assert (Hn : Qlt_bool (bmin x) (bmin y) = false)
        by (apply Qlt_bool_false_iff; exact E).
      rewrite Hn. reflexivity.
Qed.

(** Scanning the sorted table finds exactly the band the spec describes. *)
Lemma first_qualifying_sorted (rows : list Bucket) (mn : pyfloat) :
  first_qualifying (sorted_desc rows) mn = best_band rows mn.
Proof.
  induction rows as [|row rest IH]; [reflexivity|].
  cbn [sorted_desc best_band]. rewrite first_qualifying_insert, IH.
  reflexivity.
Qed.

Lemma best_band_spec (rows : list Bucket) (mn : pyfloat) :
  match best_band rows mn with
  | Some b =>
      Fle (Finite (bmin b)) mn /\
      exists pre post,
        rows = pre ++ b :: post /\
        (forall b', In b' pre -> Fle (Finite (bmin b')) mn ->
                    (bmin b' < bmin b)%Q) /\
        (forall b', In b' post -> Fle (Finite (bmin b')) mn ->
                    (bmin b' <= bmin b)%Q)
  | None => forall b', In b' rows -> ~ Fle (Finite (bmin b')) mn
  end.
Proof.
  induction rows as [|row rest IH]; cbn [best_band].
  - intros b' [].
  - destruct (float_ge mn (Finite (bmin row))) eqn:Er.
    + apply float_ge_iff in Er.
      destruct (best_band rest mn) as [b|].
      * destruct IH as (Hb & pre & post & -> & Hpre & Hpost).
        destruct (Qlt_bool (bmin row) (bmin b)) eqn:E.
        -- apply Qlt_bool_iff in E. split; [exact Hb|].
           exists (row :: pre), post. split; [reflexivity|]. split; [|exact Hpost].
           intros b' [<- | Hin] Hq; [exact E | apply Hpre; assumption].
        -- apply Qlt_bool_false_iff in E. split; [exact Er|].
           exists [], (pre ++ b :: post). split; [reflexivity|].
           split; [intros b' []|].
           intros b' Hin Hq. apply in_app_or in Hin.
           destruct Hin as [Hin | [<- | Hin]].
           ++ apply Qlt_le_weak. eapply Qlt_le_trans; [apply Hpre; eauto | exact E].
           ++ exact E.
           ++ eapply Qle_trans; [apply Hpost; eauto | exact E].
      * split; [exact Er|]. exists [], rest. split; [reflexivity|].
        split; [intros b' []|].
        intros b' Hin Hq. exfalso. exact (IH b' Hin Hq).
    + apply float_ge_false_iff in Er.
      destruct (best_band rest mn) as [b|].
      * destruct IH as (Hb & pre & post & -> & Hpre & Hpost).
        split; [exact Hb|]. exists (row :: pre), post.
        split; [reflexivity|]. split; [|exact Hpost].
        intros b' [<- | Hin] Hq; [|apply Hpre; assumption].
        exfalso. exact (Er Hq).
      * intros b' [<- | Hin]; [exact Er | apply IH, Hin].
Qed.




(** The sample band table lists the 7.0 band before the 8.0 band; a
    minimum of 8.5 still gets the 8.0 band, a minimum of 6.5 gets 0, and
    infinite scores are ordinary values of the order. *)
Example per_skill_highest_tier :
  score_english sample_rules
    (skills_only "ielts" (Finite (17 # 2)) (Finite 9) (Finite 9) (Finite 9))
    = 20
  /\
  score_english sample_rules
    (skills_only "ielts" (Finite (13 # 2)) (Finite 9) (Finite 9) (Finite 9))
    = 0
  /\
  score_english sample_rules (skills_only "ielts" PInf PInf PInf PInf) = 20
  /\
  score_english sample_rules
    (skills_only "ielts" (Finite 9) NInf (Finite 9) (Finite 9)) = 0.
Proof. repeat split; reflexivity. Qed.

(** ** Work experience *)

(** C5. The two sub-scores are bucket lookups of [overseas_years] in the
    [overseas] table and of [aus_years] in the [australia] table.  Mode
    "sum_cap" gives [min(cap_points, overseas + australia)], which never
    exceeds [cap_points]; mode "max_only" gives the larger sub-score; any
    other mode gives 0. *)
Theorem score_experience_modes (RULES : Rules) (exp : WorkExp) :
  let r := work_rules RULES in
  let over :=
    _bucket_points (overseas r) (Finite (inject_Z (overseas_years exp))) in
  let aus :=
    _bucket_points (australia r) (Finite (inject_Z (aus_years exp))) in
  (mode r = "sum_cap"%string ->
   score_experience RULES exp = Z.min (cap_points r) (over + aus) /\
   score_experience RULES exp <= cap_points r) /\
  (mode r = "max_only"%string ->
   score_experience RULES exp = Z.max over aus /\
   over <= score_experience RULES exp /\ aus <= score_experience RULES exp /\
   (score_experience RULES exp = over \/ score_experience RULES exp = aus)) /\
  (mode r <> "sum_cap"%string -> mode r <> "max_only"%string ->
   score_experience RULES exp = 0).
Proof.
  intros r over aus. unfold score_experience. fold r. fold over. fold aus.
  split; [|split].
  - intros ->. simpl. split; [reflexivity | lia].
  - intros ->. simpl. split; [reflexivity | lia].
  - intros H1 H2.
    apply String.eqb_neq in H1. apply String.eqb_neq in H2.
    rewrite H1, H2. reflexivity.
Qed.

Lemma score_experience_modes_witness :
  score_experience sample_rules (mkWorkExp 9 8) = 20 /\
  score_experience sample_rules (mkWorkExp 9 8) <= 20.
Proof.
  apply (score_experience_modes sample_rules (mkWorkExp 9 8)). reflexivity.
Defined.

(** ** Australian study *)

(** C6. Not completed: 0, also with [regional] set.  Completed: the base
    points, and the regional bonus on top exactly when [regional] is set. *)
Theorem score_au_study_cases (RULES : Rules) (reg : bool) :
  score_au_study RULES (mkAuStudy false reg) = 0 /\
  score_au_study RULES (mkAuStudy true false) =
    study_points (study_rules RULES) /\
  score_au_study RULES (mkAuStudy true true) =
    study_points (study_rules RULES) + regional_bonus (study_rules RULES).
Proof.
  unfold score_au_study. simpl. repeat split; reflexivity.
Qed.

(** ** The aggregator *)

(** The nine assignments write nine distinct keys, so the breakdown lists
    the category scores in the order they are computed. *)
Lemma build_breakdown_eq (RULES : Rules) (req : CalcRequest) :
  build_breakdown RULES req =
    [ ("age", score_age RULES (age req));
      ("english", score_english RULES (english req));
      ("education", score_education RULES (education req));
      ("work_experience", score_experience RULES (work_experience req));
      ("australia_study", score_au_study RULES (australia_study req));
      ("professional_year",
        if professional_year req then professional_year_points RULES else 0);
      ("naati", if naati req then naati_points RULES else 0);
      ("partner", default 0 (partner_mapping RULES !! partner req));
      ("state_nomination", score_state_nomination RULES (visa req)) ]%string.
Proof. reflexivity. Qed.

Lemma py_sum_fold_right (xs : list Z) : py_sum xs = fold_right Z.add 0 xs.
Proof.
  unfold py_sum. rewrite <- fold_left_rev_right.
  induction xs as [|x xs IH] using rev_ind; [reflexivity|].
  rewrite rev_app_distr, fold_right_app. simpl.
  rewrite IH. clear IH.
  induction xs as [|y ys IH]; simpl; lia.
Qed.

(** C9. The returned [total] is the sum of all values of the returned
    [breakdown], that is, of the nine category scores. *)
Theorem total_is_sum_of_breakdown (RULES : Rules) (req : CalcRequest) :
  let resp := calc_points RULES req in
  total resp = fold_right Z.add 0 (map snd (breakdown resp)) /\
  total resp =
    score_age RULES (age req) + score_english RULES (english req) +
    score_education RULES (education req) +
    score_experience RULES (work_experience req) +
    score_au_study RULES (australia_study req) +
    (if professional_year req then professional_year_points RULES else 0) +
    (if naati req then naati_points RULES else 0) +
    default 0 (partner_mapping RULES !! partner req) +
    score_state_nomination RULES (visa req).
Proof.
  intros resp. subst resp. unfold calc_points. cbn [total breakdown].
  rewrite py_sum_fold_right. split; [reflexivity|].
  rewrite build_breakdown_eq. unfold dict_values. cbn [map snd fold_right].
  lia.
Qed.

(** ** Sign of the category scores *)

Lemma bucket_points_nonneg (bs : list Bucket) (v : pyfloat) :
  buckets_nonneg bs -> 0 <= _bucket_points bs v.
Proof.
  induction 1 as [|b rest Hb _ IH]; simpl; [lia|].
  destruct (bucket_test b v); assumption.
Qed.

Lemma band_scan_nonneg (rows : list Bucket) (mn : pyfloat) :
  buckets_nonneg rows -> 0 <= band_scan rows mn.
Proof.
  induction 1 as [|b rest Hb _ IH]; cbn [band_scan]; [lia|].
  destruct (float_ge mn (Finite (bmin b))); assumption.
Qed.

Lemma sorted_desc_nonneg (rows : list Bucket) :
  buckets_nonneg rows -> buckets_nonneg (sorted_desc rows).
Proof.
  unfold buckets_nonneg. intros H.
  eapply Permutation_Forall; [|exact H].
  symmetry. apply sorted_desc_perm.
Qed.

Lemma mapping_get_nonneg (m : gmap string Z) (k : string) :
  mapping_nonneg m -> 0 <= default 0 (m !! k).
Proof.
  intros H. destruct (m !! k) as [v|] eqn:E; simpl; [eapply H; eauto | lia].
Qed.

Lemma score_english_nonneg (RULES : Rules) (eng : English) :
  rules_nonneg RULES -> 0 <= score_english RULES eng.
Proof.
  intros (_ & Hio & Hpo & Hib & Hpb & _). unfold score_english.
  destruct (overall eng) as [ov|].
  - destruct (String.eqb (test eng) "ielts");
      apply bucket_points_nonneg; assumption.
  - destruct (listening eng), (reading eng), (writing eng), (speaking eng);
      try lia.
    destruct (String.eqb (test eng) "ielts");
      apply band_scan_nonneg, sorted_desc_nonneg; assumption.
Qed.

Lemma score_experience_nonneg (RULES : Rules) (exp : WorkExp) :
  rules_nonneg RULES -> 0 <= score_experience RULES exp.
Proof.
  intros (_ & _ & _ & _ & _ & _ & Hov & Hau & Hcap & _).
  unfold score_experience.
  pose proof (bucket_points_nonneg (overseas (work_rules RULES))
                (Finite (inject_Z (overseas_years exp))) Hov).
  pose proof (bucket_points_nonneg (australia (work_rules RULES))
                (Finite (inject_Z (aus_years exp))) Hau).
  destruct (String.eqb (mode (work_rules RULES)) "sum_cap"); [lia|].
  destruct (String.eqb (mode (work_rules RULES)) "max_only"); lia.
Qed.

Lemma senior_request_valid : valid_request senior_request.
Proof.
  unfold valid_request, senior_request, sample_english; simpl.
  repeat split; try lia; set_solver.
Qed.

(** C7, as stated, fails: nothing in the scorers clamps a score, so with a
    table that configures a negative amount a valid request gets a
    negative category ([age] is -5 here). *)
Lemma breakdown_nonneg_counterexample :
  valid_request senior_request /\
  dict_get "age" (breakdown (calc_points penalty_rules senior_request))
    = Some (-5) /\
  ~ breakdown_nonneg penalty_rules senior_request.
Proof.
  split; [exact senior_request_valid|].
  split; [vm_compute; reflexivity|].
  intros [_ Hall].
  inversion Hall as [|v vs Hv _ Heq]. vm_compute in Hv. apply Hv. reflexivity.
Qed.

(** C7, amended. When every amount of points configured in the rule table
    (bucket points, mapping values, [cap_points], the study points and
    bonus, the professional-year and NAATI points) is nonnegative, the
    breakdown of every request has exactly the nine category keys and
    every value is a nonnegative integer. *)
Theorem breakdown_nonneg_of_rules (RULES : Rules) (req : CalcRequest) :
  rules_nonneg RULES -> breakdown_nonneg RULES req.
Proof.
  intros Hr. unfold breakdown_nonneg, calc_points. cbn [breakdown].
  rewrite build_breakdown_eq. split; [reflexivity|].
  pose proof (score_english_nonneg RULES (english req) Hr) as Heng.
  pose proof (score_experience_nonneg RULES (work_experience req) Hr) as Hexp.
  destruct Hr as (Hage & _ & _ & _ & _ & Hedu & _ & _ & _ & Hsp & Hrb & Hpy
                  & Hna & Hpa & Hsn).
  unfold dict_values. cbn [map snd].
  repeat constructor.
  - apply bucket_points_nonneg, Hage.
  - exact Heng.
  - apply mapping_get_nonneg, Hedu.
  - exact Hexp.
  - unfold score_au_study.
    destruct (completed (australia_study req)), (regional (australia_study req));
      lia.
  - destruct (professional_year req); [exact Hpy | lia].
  - destruct (naati req); [exact Hna | lia].
  - apply mapping_get_nonneg, Hpa.
  - apply mapping_get_nonneg, Hsn.
Qed.

Lemma mapping_nonneg_empty : mapping_nonneg ∅.
Proof. intros k v H. rewrite lookup_empty in H. discriminate H. Qed.

Lemma mapping_nonneg_insert (m : gmap string Z) (k : string) (v : Z) :
  0 <= v -> mapping_nonneg m -> mapping_nonneg (<[k := v]> m).
Proof.
  intros Hv Hm k' v' H. destruct (decide (k = k')) as [->|Hne].
  - rewrite lookup_insert_eq in H. congruence.
  - rewrite lookup_insert_ne in H by exact Hne. eapply Hm, H.
Qed.

Lemma sample_rules_nonneg : rules_nonneg sample_rules.
Proof.
  unfold rules_nonneg, buckets_nonneg, sample_rules; simpl.
  repeat split; try lia;
    repeat (first [ apply mapping_nonneg_empty
                  | apply mapping_nonneg_insert; [lia|]
                  | constructor; [simpl; lia|]
                  | constructor ]).
Qed.

Lemma breakdown_nonneg_of_rules_witness :
  breakdown_nonneg sample_rules sample_request.
Proof.
  apply (breakdown_nonneg_of_rules sample_rules sample_request).
  exact sample_rules_nonneg.
Defined.

(** ** State nomination *)

Lemma sample_request_valid : valid_request sample_request.
Proof.
  unfold valid_request, sample_request, sample_english; simpl.
  repeat split; try lia; set_solver.
Qed.

(** C8, as stated, fails in its second half: the scorer has no case for
    subclass 189 and returns whatever the table holds, so with a table
    that maps "189" to 7 a valid 189 request gets a [state_nomination]
    category of 7. *)
Lemma state_nomination_189_counterexample :
  valid_request sample_request /\
  visa sample_request = "189"%string /\
  dict_get "state_nomination"
    (breakdown (calc_points nominated_189_rules sample_request)) = Some 7 /\
  dict_get "state_nomination"
    (breakdown (calc_points nominated_189_rules sample_request)) <> Some 0.
Proof.
  split; [exact sample_request_valid|]. split; [reflexivity|].
  split; [vm_compute; reflexivity|].
  vm_compute. discriminate.
Qed.

(** C8, amended. [score_state_nomination] is the lookup of the visa
    subclass in the [state_nomination] mapping: the entry when there is
    one, 0 for a subclass the mapping does not have.  For every request
    with visa "189" the [state_nomination] category is the table's entry
    for "189", or 0 without one; it is 0 exactly when the table omits
    "189" or maps it to 0. *)
Theorem state_nomination_lookup (RULES : Rules) :
  (forall v p, state_nomination RULES !! v = Some p ->
     score_state_nomination RULES v = p) /\
  (forall v, state_nomination RULES !! v = None ->
     score_state_nomination RULES v = 0) /\
  (forall req, visa req = "189"%string ->
     dict_get "state_nomination" (breakdown (calc_points RULES req)) =
       Some (default 0 (state_nomination RULES !! "189"%string)) /\
     (dict_get "state_nomination" (breakdown (calc_points RULES req)) = Some 0
      <-> nomination_189_zero RULES)).
Proof.
  unfold score_state_nomination.
  split; [intros v p ->; reflexivity|].
  split; [intros v ->; reflexivity|].
  intros req Hvisa. unfold calc_points. cbn [breakdown].
  rewrite build_breakdown_eq. cbn [dict_get String.eqb Ascii.eqb Bool.eqb].
  unfold score_state_nomination, nomination_189_zero. rewrite Hvisa.
  split; [reflexivity|].
  destruct (state_nomination RULES !! "189"%string) as [p|]; simpl.
  - split.
    + intros H. right. exact H.
    + intros [H | H]; [discriminate H | exact H].
  - split; [intros _; left; reflexivity | reflexivity].
Qed.

Lemma state_nomination_lookup_witness :
  dict_get "state_nomination" (breakdown (calc_points sample_rules sample_request))
    = Some (default 0 (state_nomination sample_rules !! "189"%string)).
Proof.
  exact (proj1 (proj2 (proj2 (state_nomination_lookup sample_rules))
                  sample_request eq_refl)).
Defined.

(** * Further properties of the scorers *)

(** ** Bucket tables *)

Lemma bucket_points_cases (t : list Bucket) (v : pyfloat) :
  (exists b, In b t /\ in_range b v /\ _bucket_points t v = points b) \/
  (Forall (fun b => ~ in_range b v) t /\ _bucket_points t v = 0).
Proof.
  induction t as [|b rest IH]; simpl.
  - right. split; [constructor | reflexivity].
  - destruct (bucket_test b v) eqn:E.
    + apply bucket_test_iff in E. left. exists b. auto.
    + apply bucket_test_false_iff in E.
      destruct IH as [(b0 & Hin & Hr & Hp) | [Hall Hp]].
      * left. exists b0. auto.
      * right. split; [constructor; assumption | exact Hp].
Qed.

(** X1. Looking a value up in two tables put end to end: when some bucket
    of the first table contains the value the second table is never
    consulted, otherwise the result is that of the second table alone. *)
Theorem bucket_points_app (t1 t2 : list Bucket) (v : pyfloat) :
  (Exists (fun b => in_range b v) t1 ->
   _bucket_points (t1 ++ t2) v = _bucket_points t1 v) /\
  (Forall (fun b => ~ in_range b v) t1 ->
   _bucket_points (t1 ++ t2) v = _bucket_points t2 v).
Proof.
  split.
  - induction t1 as [|b rest IH]; intros Hex; [inversion Hex|].
    simpl. destruct (bucket_test b v) eqn:E; [reflexivity|].
    apply IH. inversion Hex as [? ? Hb | ? ? Hrest]; subst; [|exact Hrest].
    apply bucket_test_iff in Hb. congruence.
  - induction 1 as [|b rest Hb _ IH]; simpl; [reflexivity|].
    apply bucket_test_false_iff in Hb. rewrite Hb. exact IH.
Qed.

Lemma bucket_points_app_witness :
  _bucket_points (age_table sample_rules ++ [bucket 0 None 1]) (Finite 30) =
  _bucket_points (age_table sample_rules) (Finite 30).
Proof.
  apply (bucket_points_app (age_table sample_rules) [bucket 0 None 1]
           (Finite 30)).
  apply Exists_cons_tl, Exists_cons_hd.
  apply bucket_test_iff. reflexivity.
Defined.

(** X2. When all the buckets that contain the value carry the same points
    (in particular when ranges do not overlap), the lookup returns the
    points of any bucket that contains the value, wherever it stands in
    the table. *)
Theorem bucket_points_any_match (t : list Bucket) (b : Bucket) (v : pyfloat) :
  matches_agree t v -> In b t -> in_range b v ->
  _bucket_points t v = points b.
Proof.
  intros Hag Hin Hr.
  destruct (bucket_points_cases t v) as [(b0 & Hin0 & Hr0 & ->) | [Hall _]].
  - apply Hag; assumption.
  - exfalso. rewrite List.Forall_forall in Hall. exact (Hall b Hin Hr).
Qed.

Lemma sample_age_matches_agree :
  matches_agree (age_table sample_rules) (Finite 30).
Proof.
  intros b b' Hb Hb' Hr Hr'.
  apply bucket_test_iff in Hr, Hr'.
  simpl in Hb, Hb'.
  repeat (destruct Hb as [<- | Hb]; [|]); try contradiction;
    try discriminate Hr;
    repeat (destruct Hb' as [<- | Hb']; [|]); try contradiction;
    try discriminate Hr'; reflexivity.
Qed.

Lemma bucket_points_any_match_witness :
  _bucket_points (age_table sample_rules) (Finite 30) = 30.
Proof.
  apply (bucket_points_any_match (age_table sample_rules)
           (bucket 25 (Some 32%Q) 30) (Finite 30)).
  - exact sample_age_matches_agree.
  - right; left; reflexivity.
  - apply bucket_test_iff. reflexivity.
Defined.

(** X3. Under the same condition the order of the table does not matter:
    a reordered table gives the same result, 0 included. *)
Theorem bucket_points_reorder (t1 t2 : list Bucket) (v : pyfloat) :
  Permutation t1 t2 -> matches_agree t1 v ->
  _bucket_points t1 v = _bucket_points t2 v.
Proof.
  intros Hperm Hag.
  assert (Hag2 : matches_agree t2 v).
  { intros b b' Hb Hb'.
    apply Hag; apply (Permutation_in _ (Permutation_sym Hperm)); assumption. }
  destruct (bucket_points_cases t1 v) as [(b & Hin & Hr & ->) | [Hall ->]].
  - symmetry. apply bucket_points_any_match; [exact Hag2| |exact Hr].
    eapply Permutation_in; eauto.
  - symmetry. apply bucket_points_no_match.
    eapply Permutation_Forall; eauto.
Qed.

Lemma bucket_points_reorder_witness :
  _bucket_points (age_table sample_rules) (Finite 30) =
  _bucket_points (rev (age_table sample_rules)) (Finite 30).
Proof.
  apply (bucket_points_reorder (age_table sample_rules)
           (rev (age_table sample_rules)) (Finite 30)).
  - apply Permutation_rev.
  - exact sample_age_matches_agree.
Defined.

(** ** English bands *)

(** Two floats below each other are interchangeable in the scan. *)
Lemma band_scan_equiv (rows : list Bucket) (m m' : pyfloat) :
  Fle m m' -> Fle m' m -> band_scan rows m = band_scan rows m'.
Proof.
  intros H1 H2.
  induction rows as [|row rest IH]; cbn [band_scan]; [reflexivity|].
  rewrite IH.
  assert (Heq : float_ge m (Finite (bmin row)) =
                float_ge m' (Finite (bmin row))).
  { destruct (float_ge m (Finite (bmin row))) eqn:E;
      destruct (float_ge m' (Finite (bmin row))) eqn:E'; try reflexivity.
    - apply float_ge_iff in E. apply float_ge_false_iff in E'.
      exfalso. apply E'. eapply Fle_trans; eauto.
    - apply float_ge_false_iff in E. apply float_ge_iff in E'.
      exfalso. apply E. eapply Fle_trans; eauto. }
  rewrite Heq. reflexivity.
Qed.

Lemma py_min_perm (x y : pyfloat) (xs ys : list pyfloat) :
  Permutation (x :: xs) (y :: ys) ->
  Forall (fun z => z <> NaN) (x :: xs) ->
  Fle (py_min x xs) (py_min y ys) /\ Fle (py_min y ys) (py_min x xs).
Proof.
  intros Hperm Hnn.
  assert (Hnn' : Forall (fun z => z <> NaN) (y :: ys))
    by (eapply Permutation_Forall; eauto).
  pose proof (py_min_in x xs) as Hin1.
  pose proof (py_min_in y ys) as Hin2.
  pose proof (py_min_le x xs Hnn) as Hle1.
  pose proof (py_min_le y ys Hnn') as Hle2.
  rewrite List.Forall_forall in Hle1, Hle2.
  split.
  - apply Hle1. apply (Permutation_in _ (Permutation_sym Hperm)), Hin2.
  - apply Hle2. apply (Permutation_in _ Hperm), Hin1.
Qed.

(** The per-skill score, read off the band the spec describes. *)
Lemma band_scan_best (bands : list Bucket) (mn : pyfloat) :
  band_scan (sorted_desc bands) mn =
    match best_band bands mn with
    | Some b => points b
    | None => 0
    end.
Proof. rewrite band_scan_find, first_qualifying_sorted. reflexivity. Qed.

Lemma best_band_some (bands : list Bucket) (mn : pyfloat) (b : Bucket) :
  best_band bands mn = Some b ->
  In b bands /\ Fle (Finite (bmin b)) mn /\
  forall b', In b' bands -> Fle (Finite (bmin b')) mn ->
             (bmin b' <= bmin b)%Q.
Proof.
  intros E. pose proof (best_band_spec bands mn) as H. rewrite E in H.
  destruct H as (Hb & pre & post & -> & Hpre & Hpost).
  split; [apply in_or_app; right; left; reflexivity|].
  split; [exact Hb|].
  intros b' Hin Hq. apply in_app_or in Hin.
  destruct Hin as [Hin | [<- | Hin]].
  - apply Qlt_le_weak, Hpre; assumption.
  - apply Qle_refl.
  - apply Hpost; assumption.
Qed.

Lemma best_band_none (bands : list Bucket) (mn : pyfloat) :
  best_band bands mn = None ->
  forall b', In b' bands -> ~ Fle (Finite (bmin b')) mn.
Proof.
  intros E. pose proof (best_band_spec bands mn) as H. rewrite E in H.
  exact H.
Qed.

(** X4. On the per-skill path, when none of the four skills is NaN, only
    the values of the four skills count, not which skill has which
    value: exchanging the four scores among listening, reading, writing
    and speaking leaves the score unchanged. *)
Theorem score_english_skills_permute (RULES : Rules) (t : string)
    (l r w s l' r' w' s' : pyfloat) :
  Permutation [l; r; w; s] [l'; r'; w'; s'] ->
  Forall (fun x => x <> NaN) [l; r; w; s] ->
  score_english RULES (skills_only t l r w s) =
  score_english RULES (skills_only t l' r' w' s').
Proof.
  intros Hperm Hnn. unfold score_english, skills_only.
  cbn [overall listening reading writing speaking test].
  destruct (py_min_perm l l' [r; w; s] [r'; w'; s'] Hperm Hnn) as [H1 H2].
  destruct (String.eqb t "ielts"); apply band_scan_equiv; assumption.
Qed.

Lemma score_english_skills_permute_witness :
  score_english sample_rules
    (skills_only "ielts" (Finite (15 # 2)) (Finite 9) (Finite 8)
       (Finite (17 # 2))) =
  score_english sample_rules
    (skills_only "ielts" (Finite 9) (Finite (15 # 2)) (Finite 8)
       (Finite (17 # 2))).
Proof.
  apply (score_english_skills_permute sample_rules "ielts").
  - apply perm_swap.
  - repeat constructor; discriminate.
Defined.

(** With a NaN among the skills its position decides: the same four
    values score 20 or 0 on the sample table. *)
Example nan_position_matters :
  Permutation [Finite 9; NaN; Finite 9; Finite 9]
              [NaN; Finite 9; Finite 9; Finite 9] /\
  score_english sample_rules
    (skills_only "ielts" (Finite 9) NaN (Finite 9) (Finite 9)) = 20 /\
  score_english sample_rules
    (skills_only "ielts" NaN (Finite 9) (Finite 9) (Finite 9)) = 0.
Proof. split; [apply perm_swap | split; reflexivity]. Qed.

(** X5. The band table is sorted before it is scanned, so its order in
    the rule table does not matter: when rows with equal thresholds carry
    equal points (in particular when thresholds are distinct), a
    reordered band table gives the same score for every minimum. *)
Theorem band_table_order_irrelevant (bands1 bands2 : list Bucket)
    (mn : pyfloat) :
  Permutation bands1 bands2 -> thresholds_agree bands1 ->
  band_scan (sorted_desc bands1) mn = band_scan (sorted_desc bands2) mn.
Proof.
  intros Hperm Hag. rewrite !band_scan_best.
  destruct (best_band bands1 mn) as [b1|] eqn:E1;
    destruct (best_band bands2 mn) as [b2|] eqn:E2; [| | |reflexivity].
  - apply best_band_some in E1, E2.
    destruct E1 as (Hin1 & Hq1 & Hmax1), E2 as (Hin2 & Hq2 & Hmax2).
    pose proof (Permutation_in _ Hperm Hin1) as Hin12.
    pose proof (Permutation_in _ (Permutation_sym Hperm) Hin2) as Hin21.
    apply Hag; [assumption | assumption |].
    apply Qle_antisym; [apply Hmax2 | apply Hmax1]; assumption.
  - apply best_band_some in E1. destruct E1 as (Hin1 & Hq1 & _).
    exfalso. apply (best_band_none _ _ E2 b1); [|exact Hq1].
    exact (Permutation_in _ Hperm Hin1).
  - apply best_band_some in E2. destruct E2 as (Hin2 & Hq2 & _).
    exfalso. apply (best_band_none _ _ E1 b2); [|exact Hq2].
    exact (Permutation_in _ (Permutation_sym Hperm) Hin2).
Qed.

Lemma sample_ielts_thresholds_agree :
  thresholds_agree (ielts_bands (english_rules sample_rules)).
Proof.
  intros b b' Hb Hb' Heq. simpl in Hb, Hb'.
  destruct Hb as [<- | [<- | []]]; destruct Hb' as [<- | [<- | []]];
    try reflexivity; exfalso; revert Heq; unfold Qeq; simpl; lia.
Qed.

Lemma band_table_order_irrelevant_witness :
  band_scan (sorted_desc (ielts_bands (english_rules sample_rules)))
    (Finite (17 # 2)) =
  band_scan (sorted_desc (rev (ielts_bands (english_rules sample_rules))))
    (Finite (17 # 2)).
Proof.
  apply (band_table_order_irrelevant
           (ielts_bands (english_rules sample_rules))
           (rev (ielts_bands (english_rules sample_rules)))
           (Finite (17 # 2))).
  - apply Permutation_rev.
  - exact sample_ielts_thresholds_agree.
Defined.






(** ** Work experience without a matching bucket *)

Lemma bucket_points_below_all (t : list Bucket) (v : Q) :
  Forall (fun b => (v < bmin b)%Q) t -> _bucket_points t (Finite v) = 0.
Proof.
  intros H. apply bucket_points_no_match.
  eapply List.Forall_impl; [|exact H].
  intros b Hlt [Hle _]. exact (Qlt_not_le _ _ Hlt Hle).
Qed.

(** X7. Years of experience below the minimum of every bucket, overseas
    and in Australia, give 0 work-experience points in every mode,
    provided [cap_points] is not negative. *)
Theorem score_experience_below_all (RULES : Rules) (exp : WorkExp) :
  Forall (fun b => (inject_Z (overseas_years exp) < bmin b)%Q)
    (overseas (work_rules RULES)) ->
  Forall (fun b => (inject_Z (aus_years exp) < bmin b)%Q)
    (australia (work_rules RULES)) ->
  0 <= cap_points (work_rules RULES) ->
  score_experience RULES exp = 0.
Proof.
  intros Ho Ha Hcap. unfold score_experience.
  rewrite (bucket_points_below_all _ _ Ho), (bucket_points_below_all _ _ Ha).
  destruct (String.eqb (mode (work_rules RULES)) "sum_cap"); [lia|].
  destruct (String.eqb (mode (work_rules RULES)) "max_only"); reflexivity.
Qed.

Lemma score_experience_below_all_witness :
  score_experience sample_rules (mkWorkExp 0 0) = 0.
Proof.
  apply (score_experience_below_all sample_rules (mkWorkExp 0 0)).
  - repeat constructor.
  - repeat constructor.
  - simpl. lia.
Defined.

(** ** The breakdown as a dictionary *)

Lemma total_eq_sum (RULES : Rules) (req : CalcRequest) :
  total (calc_points RULES req) =
    score_age RULES (age req) + score_english RULES (english req) +
    score_education RULES (education req) +
    score_experience RULES (work_experience req) +
    score_au_study RULES (australia_study req) +
    (if professional_year req then professional_year_points RULES else 0) +
    (if naati req then naati_points RULES else 0) +
    default 0 (partner_mapping RULES !! partner req) +
    score_state_nomination RULES (visa req).
Proof.
  unfold calc_points. cbn [total]. rewrite py_sum_fold_right.
  rewrite build_breakdown_eq. unfold dict_values. cbn [map snd fold_right].
  lia.
Qed.

(** X8. Reading the breakdown back by category name gives the result of
    that category's scorer: the three optional categories merged with
    [update] overwrite none of the earlier ones, and no other key is
    present. *)
Theorem breakdown_lookup (RULES : Rules) (req : CalcRequest) :
  let br := breakdown (calc_points RULES req) in
  dict_get "age" br = Some (score_age RULES (age req)) /\
  dict_get "english" br = Some (score_english RULES (english req)) /\
  dict_get "education" br = Some (score_education RULES (education req)) /\
  dict_get "work_experience" br =
    Some (score_experience RULES (work_experience req)) /\
  dict_get "australia_study" br =
    Some (score_au_study RULES (australia_study req)) /\
  dict_get "professional_year" br =
    Some (if professional_year req then professional_year_points RULES
          else 0) /\
  dict_get "naati" br = Some (if naati req then naati_points RULES else 0) /\
  dict_get "partner" br =
    Some (default 0 (partner_mapping RULES !! partner req)) /\
  dict_get "state_nomination" br =
    Some (score_state_nomination RULES (visa req)) /\
  (forall k, ~ In k categories -> dict_get k br = None).
Proof.
  intros br. subst br. unfold calc_points. cbn [breakdown].
  rewrite build_breakdown_eq.
  repeat (split; [reflexivity|]).
  intros k Hk. unfold categories in Hk. simpl in Hk.
  cbn [dict_get].
  repeat match goal with
  | |- context [String.eqb ?a k] =>
      destruct (String.eqb_spec a k) as [Heq | _];
      [exfalso; apply Hk; rewrite <- Heq; tauto|]
  end.
  reflexivity.
Qed.

(** X9. The visa subclass only reaches the [state_nomination] category:
    resubmitting a request under another subclass leaves the eight other
    categories as they were and changes the total by exactly the
    difference of the two state-nomination scores. *)
Theorem visa_only_changes_nomination (RULES : Rules) (req : CalcRequest)
    (v : string) :
  let br := breakdown (calc_points RULES req) in
  let br' := breakdown (calc_points RULES (with_visa v req)) in
  (forall k, k <> "state_nomination"%string ->
     dict_get k br' = dict_get k br) /\
  total (calc_points RULES (with_visa v req)) - total (calc_points RULES req) =
    score_state_nomination RULES v - score_state_nomination RULES (visa req).
Proof.
  intros br br'. subst br br'. split.
  - intros k Hk. unfold calc_points. cbn [breakdown].
    rewrite !build_breakdown_eq. cbn [with_visa visa age english education
      work_experience australia_study professional_year naati partner].
    cbn [dict_get].
    repeat match goal with
    | |- context [String.eqb ?a k] =>
        destruct (String.eqb_spec a k) as [Heq | _];
        [first [reflexivity | exfalso; apply Hk; rewrite <- Heq; reflexivity]|]
    end.
    reflexivity.
  - rewrite !total_eq_sum. simpl. lia.
Qed.

(** X10. With a rule table whose amounts are all nonnegative, no category
    exceeds the total: every value of the breakdown lies between 0 and
    [total]. *)
Theorem category_at_most_total (RULES : Rules) (req : CalcRequest)
    (k : string) (p : Z) :
  rules_nonneg RULES ->
  dict_get k (breakdown (calc_points RULES req)) = Some p ->
  0 <= p <= total (calc_points RULES req).
Proof.
  intros Hr Hget. rewrite total_eq_sum.
  pose proof (score_english_nonneg RULES (english req) Hr) as Heng.
  pose proof (score_experience_nonneg RULES (work_experience req) Hr) as Hexp.
  destruct Hr as (Hage & _ & _ & _ & _ & Hedu & _ & _ & _ & Hsp & Hrb & Hpy
                  & Hna & Hpa & Hsn).
  pose proof (bucket_points_nonneg _ (Finite (inject_Z (age req))) Hage) as Ha.
  fold (score_age RULES (age req)) in Ha.
  pose proof (mapping_get_nonneg _ (education req) Hedu) as He.
  fold (score_education RULES (education req)) in He.
  pose proof (mapping_get_nonneg _ (partner req) Hpa) as Hp.
  pose proof (mapping_get_nonneg _ (visa req) Hsn) as Hs.
  fold (score_state_nomination RULES (visa req)) in Hs.
  assert (Hst : 0 <= score_au_study RULES (australia_study req)).
  { unfold score_au_study.
    destruct (completed (australia_study req)),
      (regional (australia_study req)); lia. }
  assert (Hy : 0 <= (if professional_year req
                     then professional_year_points RULES else 0))
    by (destruct (professional_year req); lia).
  assert (Hn : 0 <= (if naati req then naati_points RULES else 0))
    by (destruct (naati req); lia).
  unfold calc_points in Hget. cbn [breakdown] in Hget.
  rewrite build_breakdown_eq in Hget. cbn [dict_get] in Hget.
  repeat match type of Hget with
  | context [String.eqb ?a k] =>
      destruct (String.eqb a k);
      [injection Hget as <-; lia|]
  end.
  discriminate Hget.
Qed.

Lemma category_at_most_total_witness :
  0 <= 20 <= total (calc_points sample_rules sample_request).
Proof.
  apply (category_at_most_total sample_rules sample_request "english" 20).
  - exact sample_rules_nonneg.
  - reflexivity.
Defined.
